(** * DocParser: the HTML chunk classifier and the chunk normaliser

    A shallow embedding of [src/html_parser.py] and [src/chunker.py].

    Conventions of the embedding.
    - A Python [str] is a [string]; every [ascii] stands for one code point
      below 256, and the character classes ([isspace], [\w], [lower]) are
      Python's Unicode tables restricted to that range.
    - A JSON value (what [json.load] returns) is a [json]; a Python [dict]
      with string keys is a [gmap string json], so that [d.get(k, v)] is
      [default v (d !! k)] and two dicts are equal iff they agree on every
      key.
    - A function that can raise returns [option]: [None] is the raised
      exception ([AttributeError] or [TypeError]; the code never tells
      them apart).  [print] calls are dropped.
    - A [while i < len(chunks)] loop over an index is a recursion on the
      suffix [chunks[i:]]; the list the loop appends to is an accumulator. *)

From Stdlib Require Import ZArith String Ascii List Lia.
From stdpp Require Import base option list gmap strings.
From Equations Require Import Equations.

Set Warnings "-register-all".
Open Scope string_scope.
Open Scope list_scope.

(** Keeps the equation of a [with] scrutinee for the termination proofs. *)
Definition inspect {A} (a : A) : {b : A | a = b} := exist _ a eq_refl.

(** ** Python strings *)

Module Py.

Definition isspace (a : ascii) : bool :=
  let n := N_of_ascii a in
  (((9 <=? n) && (n <=? 13)) || ((28 <=? n) && (n <=? 32))
   || (n =? 133) || (n =? 160))%N.

(** [str.isalnum] on one character. *)
Definition isalnum (a : ascii) : bool :=
  let n := N_of_ascii a in
  (((48 <=? n) && (n <=? 57)) || ((65 <=? n) && (n <=? 90))
   || ((97 <=? n) && (n <=? 122))
   || (n =? 170) || (n =? 178) || (n =? 179) || (n =? 181) || (n =? 185)
   || (n =? 186) || ((188 <=? n) && (n <=? 190))
   || ((192 <=? n) && (n <=? 214)) || ((216 <=? n) && (n <=? 246))
   || (248 <=? n))%N.

(** The regular expression class [\w]. *)
Definition isword (a : ascii) : bool :=
  isalnum a || (N_of_ascii a =? 95)%N.

Definition lower_char (a : ascii) : ascii :=
  let n := N_of_ascii a in
  if (((65 <=? n) && (n <=? 90))
      || ((192 <=? n) && (n <=? 222) && negb (n =? 215)))%N
  then ascii_of_N (n + 32) else a.

Fixpoint lower (s : string) : string :=
  match s with
  | EmptyString => EmptyString
  | String a s' => String (lower_char a) (lower s')
  end.

(** Truth value of a [str]: non-empty. *)
Definition nonempty (s : string) : bool :=
  match s with EmptyString => false | String _ _ => true end.

Fixpoint lstrip (s : string) : string :=
  match s with
  | EmptyString => EmptyString
  | String a s' => if isspace a then lstrip s' else s
  end.

Fixpoint rstrip (s : string) : string :=
  match s with
  | EmptyString => EmptyString
  | String a s' =>
      match rstrip s' with
      | EmptyString => if isspace a then EmptyString else String a EmptyString
      | r => String a r
      end
  end.

Definition strip (s : string) : string := rstrip (lstrip s).

(** [sep.join(parts)]. *)
Fixpoint join (sep : string) (parts : list string) : string :=
  match parts with
  | [] => EmptyString
  | [p] => p
  | p :: ps => p +:+ sep +:+ join sep ps
  end.

(** [s.split()]: the maximal runs of non-whitespace characters. *)
Fixpoint split (s : string) : list string :=
  match s with
  | EmptyString => []
  | String a s' =>
      if isspace a then split s'
      else match s' with
           | EmptyString => [String a EmptyString]
           | String b _ =>
               if isspace b then String a EmptyString :: split s'
               else match split s' with
                    | w :: ws => String a w :: ws
                    | [] => [String a EmptyString]
                    end
           end
  end.

Fixpoint startswith (s p : string) : bool :=
  match p, s with
  | EmptyString, _ => true
  | String b p', String a s' => bool_decide (a = b) && startswith s' p'
  | String _ _, EmptyString => false
  end.

(** [s[n:]] *)
Fixpoint drop_prefix (n : nat) (s : string) : string :=
  match n, s with
  | O, _ => s
  | S n', String _ s' => drop_prefix n' s'
  | S _, EmptyString => EmptyString
  end.

Fixpoint take_prefix (n : nat) (s : string) : string :=
  match n, s with
  | S n', String a s' => String a (take_prefix n' s')
  | _, _ => EmptyString
  end.

Definition endswith (s p : string) : bool :=
  (String.length p <=? String.length s)%nat
  && bool_decide (drop_prefix (String.length s - String.length p) s = p).

(** [s[:-n]] for [n > 0]. *)
Definition drop_suffix (n : nat) (s : string) : string :=
  take_prefix (String.length s - n) s.

(** [needle in s] for two strings. *)
Definition contains (needle s : string) : bool :=
  match String.index 0 needle s with Some _ => true | None => false end.

(** *** [re.sub(r'<[^>]+>', '', text)] *)

(** The text after the first [>] of [s], when there is one. *)
Fixpoint after_gt (s : string) : option string :=
  match s with
  | EmptyString => None
  | String a s' => if bool_decide (a = ">"%char) then Some s' else after_gt s'
  end.

(** A match of [<[^>]+>] at a [<]: [s] is the text after the [<]; the
    result is the text after the match. *)
Definition match_tag (s : string) : option string :=
  match s with
  | EmptyString => None
  | String a s' => if bool_decide (a = ">"%char) then None else after_gt s'
  end.

Definition tag_at (a : ascii) (s' : string) : option string :=
  if bool_decide (a = "<"%char) then match_tag s' else None.

Lemma after_gt_length s r :
  after_gt s = Some r -> (String.length r < String.length s)%nat.
Proof.
  revert r. induction s as [|a s IH]; simpl; intros r H; [discriminate|].
  case_bool_decide.
  - injection H as <-. lia.
  - apply IH in H. lia.
Qed.

Lemma tag_at_length a s r :
  tag_at a s = Some r -> (String.length r < S (String.length s))%nat.
Proof.
  unfold tag_at, match_tag. case_bool_decide; [|discriminate].
  destruct s as [|b s]; [discriminate|]. case_bool_decide; [discriminate|].
  intros Hr%after_gt_length. simpl. lia.
Qed.

Equations? remove_tags (s : string) : string by wf (String.length s) lt :=
  remove_tags EmptyString := EmptyString;
  remove_tags (String a s') with inspect (tag_at a s') => {
    | exist _ (Some rest) _ := remove_tags rest;
    | exist _ None _ := String a (remove_tags s') }.
Proof. eapply tag_at_length; eassumption. Qed.

(** *** [re.sub(r'[^\w\s]', ' ', text)] *)

Fixpoint punct_to_space (s : string) : string :=
  match s with
  | EmptyString => EmptyString
  | String a s' =>
      String (if isword a || isspace a then a else " "%char)
             (punct_to_space s')
  end.

End Py.

(** ** JSON values *)

(** What [json.load] returns, and what [json.dump] accepts.  Numbers are
    the integers; the chunk files hold no other number. *)
Inductive json : Type :=
| JNull
| JBool (b : bool)
| JInt (n : Z)
| JStr (s : string)
| JList (l : list json)
| JDict (d : gmap string json).

(** Truth value of a Python object, as [if v:] tests it. *)
Definition truthy (v : json) : bool :=
  match v with
  | JNull => false
  | JBool b => b
  | JInt n => negb (n =? 0)%Z
  | JStr s => Py.nonempty s
  | JList l => match l with [] => false | _ => true end
  | JDict d => negb (bool_decide (d = ∅))
  end.

(** [v == 'lit']: only the string [lit] itself is equal to it. *)
Definition eq_str (v : json) (lit : string) : bool :=
  match v with
  | JStr s => bool_decide (s = lit)
  | _ => false
  end.

(** [v.strip()]: only a [str] has the method. *)
Definition str_strip (v : json) : option string :=
  match v with
  | JStr s => Some (Py.strip s)
  | _ => None
  end.

(** [sep.join(l)] on a JSON list: every item has to be a [str]. *)
Definition join_json (sep : string) (l : list json) : option string :=
  Py.join sep <$> mapM (λ v, match v with JStr s => Some s | _ => None end) l.

(** ** chunker.py *)

Module Chunker.

(** [d.get(k, dflt)] *)
Definition get (d : gmap string json) (k : string) (dflt : json) : json :=
  default dflt (d !! k).

(** [d.get(k)], with Python's [None] for a missing key. *)
Definition get_none (d : gmap string json) (k : string) : json :=
  default JNull (d !! k).

(** *** count_tokens *)

Definition count_tokens (text : string) : nat :=
  if negb (Py.nonempty text) || negb (Py.nonempty (Py.strip text)) then 0
  else
    let clean_text := Py.remove_tags text in
    let clean_text := Py.punct_to_space clean_text in
    let tokens :=
      List.filter (λ token, Py.nonempty (Py.strip token)) (Py.split clean_text) in
    length tokens.

(** *** merge_consecutive_table_chunks *)

(** [chunk.get('content_type', '') == 'table'] *)
Definition is_table (chunk : gmap string json) : bool :=
  eq_str (get chunk "content_type" (JStr "")) "table".

(** [chunk.get('content', '').strip()] *)
Definition stripped_content (chunk : gmap string json) : option string :=
  str_strip (get chunk "content" (JStr "")).

(** The inner [while j < len(chunks) and chunks[j]...  == 'table'] loop;
    [rest] is [chunks[j:]].  It returns both lists and [chunks[j:]] for the
    final [j]. *)
Fixpoint look_ahead (table_chunks : list (gmap string json))
    (table_contents : list string) (rest : list (gmap string json))
  : option (list (gmap string json) * list string * list (gmap string json)) :=
  match rest with
  | [] => Some (table_chunks, table_contents, [])
  | cj :: rest' =>
      if is_table cj then
        content ← stripped_content cj;
        look_ahead (table_chunks ++ [cj]) (table_contents ++ [content]) rest'
      else Some (table_chunks, table_contents, rest)
  end.

(** The dict literal [merged_chunk]. *)
Definition merged_chunk (current_chunk : gmap string json)
    (table_chunks : list (gmap string json)) (table_contents : list string)
  : gmap string json :=
  let merged_content := Py.join " | " (List.filter Py.nonempty table_contents) in
  let table_attributes := get current_chunk "attributes" (JDict ∅) in
  let table_tag_name := get current_chunk "tag_name" (JStr "") in
  let table_position := get current_chunk "position" (JInt 0) in
  <["content_type" := JStr "table"]> (
  <["content" := JStr merged_content]> (
  <["tag_name" := table_tag_name]> (
  <["attributes" := table_attributes]> (
  <["position" := table_position]> (
  <["table_info" := JDict (
      <["merged_chunks" := JInt (Z.of_nat (length table_chunks))]> (
      <["original_positions" :=
          JList (map (λ chunk, get chunk "position" (JInt 0)) table_chunks)]>
      ∅))]> ∅))))).

(** What one round of the outer loop appends for a table chunk, and
    [chunks[j:]]. *)
Definition table_step (current_chunk : gmap string json)
    (rest : list (gmap string json))
  : option (gmap string json * list (gmap string json)) :=
  content ← stripped_content current_chunk;
  '(table_chunks, table_contents, rest') ← look_ahead [current_chunk] [content] rest;
  if (1 <? length table_chunks)%nat
  then Some (merged_chunk current_chunk table_chunks table_contents, rest')
  else Some (current_chunk, rest').

Lemma look_ahead_length tcs tct rest tcs' tct' rest' :
  look_ahead tcs tct rest = Some (tcs', tct', rest') ->
  (length rest' <= length rest)%nat.
Proof.
  revert tcs tct. induction rest as [|c rest IH]; simpl; intros tcs tct H.
  - injection H as _ _ <-. done.
  - destruct (is_table c).
    + destruct (stripped_content c); simpl in H; [|discriminate].
      apply IH in H. lia.
    + injection H as _ _ <-. done.
Qed.

Lemma table_step_length c rest m rest' :
  table_step c rest = Some (m, rest') -> (length rest' <= length rest)%nat.
Proof.
  unfold table_step. destruct (stripped_content c); simpl; [|discriminate].
  destruct (look_ahead _ _ _) as [[[tcs tct] r]|] eqn:E; simpl; [|discriminate].
  apply look_ahead_length in E.
  destruct (1 <? length tcs)%nat; intros [= _ <-]; done.
Qed.

(** The outer [while i < len(chunks)] loop; [chunks] is [chunks[i:]] and
    [merged_chunks] the list built so far. *)
Equations? merge_loop (merged_chunks chunks : list (gmap string json))
  : option (list (gmap string json)) by wf (length chunks) lt :=
  merge_loop merged_chunks [] := Some merged_chunks;
  merge_loop merged_chunks (current_chunk :: rest) with is_table current_chunk => {
    | false := merge_loop (merged_chunks ++ [current_chunk]) rest;
    | true with inspect (table_step current_chunk rest) => {
        | exist _ None _ := None;
        | exist _ (Some (out, rest')) _ := merge_loop (merged_chunks ++ [out]) rest' } }.
Proof.
  match goal with H : table_step _ _ = Some _ |- _ =>
    apply table_step_length in H end.
  simpl. lia.
Qed.

Definition merge_consecutive_table_chunks (chunks : list (gmap string json))
  : option (list (gmap string json)) :=
  match chunks with
  | [] => Some chunks
  | _ => merge_loop [] chunks
  end.

(** *** filter_empty_content *)

Fixpoint filter_loop (filtered_chunks chunks : list (gmap string json))
  : option (list (gmap string json)) :=
  match chunks with
  | [] => Some filtered_chunks
  | chunk :: rest =>
      content ← stripped_content chunk;
      if Py.nonempty content then
        if eq_str (get_none chunk "content_type") "divider"
           || eq_str (get_none chunk "content_type") "image"
           || (0 <? String.length content)%nat
        then filter_loop (filtered_chunks ++ [chunk]) rest
        else filter_loop filtered_chunks rest
      else filter_loop filtered_chunks rest
  end.

Definition filter_empty_content (chunks : list (gmap string json))
  : option (list (gmap string json)) :=
  filter_loop [] chunks.

(** *** convert_chunk_to_database_format *)

(** A database record: the dict literal with the keys [id], [content] and
    [metadata]. *)
Record db_record := DbRecord {
  id : Z;
  content : string;
  metadata : gmap string json
}.

Definition type_mapping : gmap string string :=
  list_to_map [
    ("heading", "header"); ("paragraph", "paragraph"); ("list", "list");
    ("table", "table"); ("image", "image"); ("code_block", "code");
    ("quote", "quote"); ("form", "form"); ("navigation", "navigation");
    ("footer", "footer"); ("divider", "divider"); ("unknown", "unknown")].

Section Converter.

(** Python's built-in [str()] on a value that is not a [str]; the
    interpreter's, not the repository's. *)
Variable py_str : json -> string.

(** [paper_metadata['title']] *)
Variable paper_title : string.

(** [type_mapping.get(content_type, 'unknown')]: a list or a dict is not
    hashable. *)
Definition chunk_type_of (content_type : json) : option string :=
  match content_type with
  | JStr s => Some (default "unknown" (type_mapping !! s))
  | JList _ | JDict _ => None
  | _ => Some "unknown"
  end.

Definition html_class_of (chunk : gmap string json) : option string :=
  match get chunk "attributes" (JDict ∅) with
  | JDict attributes =>
      let class_value := get_none attributes "class" in
      if truthy class_value then
        match class_value with
        | JList l => join_json " " l
        | JStr s => Some s
        | v => Some (py_str v)
        end
      else Some ""
  | _ => None
  end.

(** The [if content_type == 'table' and chunk.get('table_info'):] block;
    ['merged_chunks' in table_info] and [table_info['merged_chunks']] on
    each kind of value. *)
Definition add_table_info (chunk metadata : gmap string json)
  : option (gmap string json) :=
  let table_info := get_none chunk "table_info" in
  if truthy table_info then
    match table_info with
    | JDict d =>
        match d !! "merged_chunks" with
        | Some v => Some (<["merged_chunks" := v]> metadata)
        | None => Some metadata
        end
    | JList l =>
        if existsb (λ v, eq_str v "merged_chunks") l then None else Some metadata
    | JStr s => if Py.contains "merged_chunks" s then None else Some metadata
    | _ => None
    end
  else Some metadata.

Definition convert_chunk_to_database_format (chunk : gmap string json)
    (chunk_id : Z) : option db_record :=
  content ← stripped_content chunk;
  let content_type := get chunk "content_type" (JStr "unknown") in
  chunk_type ← chunk_type_of content_type;
  html_class ← html_class_of chunk;
  let metadata : gmap string json :=
    <["name" := JStr paper_title]> (
    <["type" := JStr chunk_type]> (
    <["html_class" := JStr html_class]> (
    <["token_count" := JInt (Z.of_nat (count_tokens content))]> (
    <["tag_name" := get chunk "tag_name" (JStr "")]> (
    <["position" := get chunk "position" (JInt 0)]> ∅))))) in
  let metadata :=
    if eq_str content_type "heading" && truthy (get_none chunk "level")
    then <["level" := get_none chunk "level"]> metadata else metadata in
  let metadata :=
    if eq_str content_type "list" && truthy (get_none chunk "list_type")
    then <["list_type" := get_none chunk "list_type"]> metadata else metadata in
  metadata ←
    (if eq_str content_type "table" then add_table_info chunk metadata
     else Some metadata);
  Some {| id := chunk_id; content := content; metadata := metadata |}.

(** *** convert_json_to_database_format *)

(** The conversion loop: a chunk whose conversion raises is skipped and
    does not use up an id. *)
Fixpoint convert_loop (database_chunks : list db_record) (chunk_id : Z)
    (chunks : list (gmap string json)) : list db_record :=
  match chunks with
  | [] => database_chunks
  | chunk :: rest =>
      match convert_chunk_to_database_format chunk chunk_id with
      | Some db_chunk =>
          convert_loop (database_chunks ++ [db_chunk]) (chunk_id + 1) rest
      | None => convert_loop database_chunks chunk_id rest
      end
  end.

(** From the loaded chunk list on: reading the file and the extraction of
    the paper metadata come before and give [chunks] and [paper_title]. *)
Definition convert_json_to_database_format (chunks : list (gmap string json))
    (include_empty merge_tables : bool) : option (list db_record) :=
  chunks ← (if negb include_empty then filter_empty_content chunks
            else Some chunks);
  chunks ← (if merge_tables then merge_consecutive_table_chunks chunks
            else Some chunks);
  Some (convert_loop [] 1 chunks).

End Converter.

End Chunker.

(** ** html_parser.py *)

Module HtmlParser.

Inductive ContentType :=
| HEADING | PARAGRAPH | LIST | TABLE | DIVIDER | IMAGE | CODE_BLOCK
| QUOTE | FORM | NAVIGATION | FOOTER | HEADER | SIDEBAR | UNKNOWN.

#[global] Instance ContentType_eq_dec : EqDecision ContentType.
Proof. solve_decision. Defined.

(** [ContentType.value] *)
Definition value (t : ContentType) : string :=
  match t with
  | HEADING => "heading" | PARAGRAPH => "paragraph" | LIST => "list"
  | TABLE => "table" | DIVIDER => "divider" | IMAGE => "image"
  | CODE_BLOCK => "code_block" | QUOTE => "quote" | FORM => "form"
  | NAVIGATION => "navigation" | FOOTER => "footer" | HEADER => "header"
  | SIDEBAR => "sidebar" | UNKNOWN => "unknown"
  end.

Record ContentChunk := {
  content_type : ContentType;
  content : string;
  tag_name : string;
  attributes : gmap string json;
  level : option Z;
  list_type : option string;
  table_info : option (gmap string json);
  position : option Z
}.

Definition opt_json {A} (f : A -> json) (o : option A) : json :=
  match o with Some a => f a | None => JNull end.

Definition to_dict (self : ContentChunk) : gmap string json :=
  <["content_type" := JStr (value (content_type self))]> (
  <["content" := JStr (content self)]> (
  <["tag_name" := JStr (tag_name self)]> (
  <["attributes" := JDict (attributes self)]> (
  <["level" := opt_json JInt (level self)]> (
  <["list_type" := opt_json JStr (list_type self)]> (
  <["table_info" := opt_json JDict (table_info self)]> (
  <["position" := opt_json JInt (position self)]> ∅))))))).

(** The parse tree that BeautifulSoup builds: a [NavigableString], or a
    [Tag] with its name, its attributes (a string, or a list of strings
    for [class] and the like) and its contents. *)
Inductive node :=
| NavigableString (text : string)
| Tag (name : string) (attrs : gmap string json) (contents : list node).

Definition name_of (e : node) : string :=
  match e with
  | Tag n _ _ => n
  | NavigableString _ => EmptyString
  end.

Definition attrs_of (e : node) : gmap string json :=
  match e with
  | Tag _ a _ => a
  | NavigableString _ => ∅
  end.

Definition contents_of (e : node) : list node :=
  match e with
  | Tag _ _ cs => cs
  | NavigableString _ => []
  end.

Definition is_tag (e : node) : bool :=
  match e with Tag _ _ _ => true | NavigableString _ => false end.

(** [element.find_all(True)]: every tag below the element, in document
    order. *)
Fixpoint descendants (e : node) : list node :=
  match e with
  | NavigableString _ => []
  | Tag _ _ cs =>
      (fix below (l : list node) : list node :=
         match l with
         | [] => []
         | c :: l' =>
             (if is_tag c then [c] else []) ++ descendants c ++ below l'
         end) cs
  end.

(** [element.find_all(names)] *)
Definition find_all (names : list string) (e : node) : list node :=
  List.filter (λ d, bool_decide (name_of d ∈ names)) (descendants e).

(** [element.find_all(name, recursive=False)] *)
Definition find_children (name : string) (e : node) : list node :=
  List.filter (λ c, is_tag c && bool_decide (name_of c = name)) (contents_of e).

(** *** The tag sets of [HTMLContentParser.__init__] *)

Definition heading_tags : gset string := {[ "h1"; "h2"; "h3"; "h4"; "h5"; "h6" ]}.
Definition paragraph_tags : gset string := {[ "p" ]}.
Definition list_tags : gset string := {[ "ul"; "ol"; "li" ]}.
Definition table_tags : gset string :=
  {[ "table"; "thead"; "tbody"; "tr"; "th"; "td" ]}.
Definition divider_tags : gset string := {[ "hr" ]}.
Definition image_tags : gset string := {[ "img" ]}.
Definition code_tags : gset string := {[ "pre"; "code" ]}.
Definition quote_tags : gset string := {[ "blockquote"; "q" ]}.
Definition form_tags : gset string :=
  {[ "form"; "input"; "textarea"; "select"; "button" ]}.
Definition nav_tags : gset string := {[ "nav" ]}.
Definition footer_tags : gset string := {[ "footer" ]}.
Definition header_tags : gset string := {[ "header" ]}.
Definition ignore_tags : gset string :=
  {[ "script"; "style"; "meta"; "link"; "title"; "head"; "html"; "body";
     "div"; "span"; "section"; "article"; "aside"; "main" ]}.
Definition structural_tags : gset string :=
  {[ "div"; "section"; "article"; "aside"; "main" ]}.

(** [x in tags] *)
Definition mem (x : string) (tags : gset string) : bool := bool_decide (x ∈ tags).

(** *** Text extraction *)

Fixpoint _extract_text_content (element : node) : string :=
  match element with
  | NavigableString s => Py.strip s
  | Tag _ _ cs =>
      Py.join " "
        ((fix text_parts (l : list node) : list string :=
            match l with
            | [] => []
            | c :: l' =>
                match c with
                | NavigableString s =>
                    let text := Py.strip s in
                    if Py.nonempty text then text :: text_parts l'
                    else text_parts l'
                | Tag n _ _ =>
                    if mem n ignore_tags then
                      let text := _extract_text_content c in
                      if Py.nonempty text then text :: text_parts l'
                      else text_parts l'
                    else text_parts l'
                end
            end) cs)
  end.

Section Parser.

(** Python's built-in [str()] on an attribute value that is not a [str]
    (the list of a multi-valued attribute). *)
Variable py_str : json -> string.

(** The literal in front of a list item in [_extract_list_content]; one of
    its characters lies above 255. *)
Variable bullet_prefix : string.

(** [BeautifulSoup(html_string, 'html.parser')]: the library's parser; the
    root it returns stands for the document and is no element. *)
Variable BeautifulSoup : string -> node.

(** The value in an f-string: [format(v)]. *)
Definition fmt (v : json) : string :=
  match v with
  | JStr s => s
  | _ => py_str v
  end.

(** [attributes.get(key, dflt)] *)
Definition attr (attributes : gmap string json) (key dflt : string) : json :=
  default (JStr dflt) (attributes !! key).

Definition _extract_list_content (element : node) : string :=
  if bool_decide (name_of element = "li") then _extract_text_content element
  else
    let items :=
      omap (λ li,
              let item_text := _extract_text_content li in
              if Py.nonempty item_text then Some (bullet_prefix +:+ item_text)
              else None)
           (find_children "li" element) in
    Py.join (String "010"%char EmptyString) items.

Definition _extract_table_content (element : node) : string :=
  if bool_decide (name_of element ∈ ["th"; "td"])
  then _extract_text_content element
  else
    let cells :=
      omap (λ cell,
              let cell_text := _extract_text_content cell in
              if Py.nonempty cell_text then Some cell_text else None)
           (find_all ["th"; "td"] element) in
    Py.join " | " cells.

Definition _extract_table_info (element : node) : gmap string json :=
  if bool_decide (name_of element = "table") then
    let rows := find_all ["tr"] element in
    let cols :=
      foldr Nat.max 0 (map (λ row, length (find_all ["th"; "td"] row)) rows) in
    <["rows" := JInt (Z.of_nat (length rows))]> (
    <["columns" := JInt (Z.of_nat cols)]> (
    <["has_header" :=
        JBool (match find_all ["thead"] element, find_all ["th"] element with
               | [], [] => false
               | _, _ => true
               end)]> ∅))
  else ∅.

Definition _extract_form_content (element : node) : string :=
  if bool_decide (name_of element = "form") then
    let inputs :=
      map (λ input_elem,
             let input_type := attr (attrs_of input_elem) "type" "text" in
             let placeholder := attr (attrs_of input_elem) "placeholder" "" in
             let name := attr (attrs_of input_elem) "name" "" in
             "[" +:+ fmt input_type +:+ ": " +:+ fmt name +:+ "] "
                 +:+ fmt placeholder)
          (find_all ["input"; "textarea"; "select"] element) in
    Py.join " | " inputs
  else _extract_text_content element.

(** [int(element.name[1])], for a name whose second character is an ASCII
    digit; every name that reaches [_process_heading] is one. *)
Definition heading_level (name : string) : option Z :=
  match name with
  | String _ (String d _) =>
      let n := N_of_ascii d in
      if ((48 <=? n) && (n <=? 57))%N then Some (Z.of_N n - 48)%Z else None
  | _ => None
  end.

Definition plain_chunk (t : ContentType) (content : string) (element : node)
    (attributes : gmap string json) (position : Z) : ContentChunk :=
  {| content_type := t; content := content; tag_name := name_of element;
     attributes := attributes; level := None; list_type := None;
     table_info := None; position := Some position |}.

Definition _process_heading (element : node) (attributes : gmap string json)
    (position : Z) : ContentChunk :=
  {| content_type := HEADING; content := _extract_text_content element;
     tag_name := name_of element; attributes := attributes;
     level := heading_level (name_of element); list_type := None;
     table_info := None; position := Some position |}.

Definition _process_paragraph (element : node) (attributes : gmap string json)
    (position : Z) : ContentChunk :=
  plain_chunk PARAGRAPH (_extract_text_content element) element attributes position.

Definition _process_list (element : node) (attributes : gmap string json)
    (position : Z) : ContentChunk :=
  {| content_type := LIST; content := _extract_list_content element;
     tag_name := name_of element; attributes := attributes; level := None;
     list_type := if bool_decide (name_of element ∈ ["ul"; "ol"])
                  then Some (name_of element) else None;
     table_info := None; position := Some position |}.

Definition _process_table (element : node) (attributes : gmap string json)
    (position : Z) : ContentChunk :=
  {| content_type := TABLE; content := _extract_table_content element;
     tag_name := name_of element; attributes := attributes; level := None;
     list_type := None; table_info := Some (_extract_table_info element);
     position := Some position |}.

Definition _process_divider (element : node) (attributes : gmap string json)
    (position : Z) : ContentChunk :=
  plain_chunk DIVIDER "---" element attributes position.

Definition _process_image (element : node) (attributes : gmap string json)
    (position : Z) : ContentChunk :=
  let src := attr attributes "src" "" in
  let alt := attr attributes "alt" "" in
  let content :=
    if truthy alt then "[Image: " +:+ fmt alt +:+ "] (" +:+ fmt src +:+ ")"
    else "[Image] (" +:+ fmt src +:+ ")" in
  plain_chunk IMAGE content element attributes position.

Definition _process_code (element : node) (attributes : gmap string json)
    (position : Z) : ContentChunk :=
  plain_chunk CODE_BLOCK (_extract_text_content element) element attributes position.

Definition _process_quote (element : node) (attributes : gmap string json)
    (position : Z) : ContentChunk :=
  plain_chunk QUOTE (_extract_text_content element) element attributes position.

Definition _process_form (element : node) (attributes : gmap string json)
    (position : Z) : ContentChunk :=
  plain_chunk FORM (_extract_form_content element) element attributes position.

Definition _process_navigation (element : node) (attributes : gmap string json)
    (position : Z) : ContentChunk :=
  plain_chunk NAVIGATION (_extract_text_content element) element attributes position.

Definition _process_footer (element : node) (attributes : gmap string json)
    (position : Z) : ContentChunk :=
  plain_chunk FOOTER (_extract_text_content element) element attributes position.

Definition _process_header (element : node) (attributes : gmap string json)
    (position : Z) : ContentChunk :=
  plain_chunk HEADER (_extract_text_content element) element attributes position.

Definition _process_structural (element : node) (attributes : gmap string json)
    (position : Z) : option ContentChunk :=
  let content := _extract_text_content element in
  if Py.nonempty (Py.strip content)
  then Some (plain_chunk UNKNOWN content element attributes position)
  else None.

Definition _process_unknown (element : node) (attributes : gmap string json)
    (position : Z) : ContentChunk :=
  plain_chunk UNKNOWN (_extract_text_content element) element attributes position.

Definition _process_element (element : node) (position : Z)
  : option ContentChunk :=
  let tag_name := Py.lower (name_of element) in
  if mem tag_name ignore_tags then None
  else
    let attributes := attrs_of element in
    if mem tag_name heading_tags then Some (_process_heading element attributes position)
    else if mem tag_name paragraph_tags then Some (_process_paragraph element attributes position)
    else if mem tag_name list_tags then Some (_process_list element attributes position)
    else if mem tag_name table_tags then Some (_process_table element attributes position)
    else if mem tag_name divider_tags then Some (_process_divider element attributes position)
    else if mem tag_name image_tags then Some (_process_image element attributes position)
    else if mem tag_name code_tags then Some (_process_code element attributes position)
    else if mem tag_name quote_tags then Some (_process_quote element attributes position)
    else if mem tag_name form_tags then Some (_process_form element attributes position)
    else if mem tag_name nav_tags then Some (_process_navigation element attributes position)
    else if mem tag_name footer_tags then Some (_process_footer element attributes position)
    else if mem tag_name header_tags then Some (_process_header element attributes position)
    else if mem tag_name structural_tags then _process_structural element attributes position
    else Some (_process_unknown element attributes position).

Definition _clean_html_string (html_string : string) : string :=
  let html_string := Py.strip html_string in
  let html_string :=
    if Py.startswith html_string "```html" then Py.drop_prefix 7 html_string
    else html_string in
  let html_string :=
    if Py.endswith html_string "```" then Py.drop_suffix 3 html_string
    else html_string in
  Py.strip html_string.

(** The [for element in soup.find_all(True)] loop of [parse_html]. *)
Fixpoint parse_loop (chunks : list ContentChunk) (position : Z)
    (elements : list node) : list ContentChunk :=
  match elements with
  | [] => chunks
  | element :: rest =>
      match _process_element element position with
      | Some chunk => parse_loop (chunks ++ [chunk]) (position + 1) rest
      | None => parse_loop chunks position rest
      end
  end.

Definition parse_html (html_string : string) : list ContentChunk :=
  let html_string := _clean_html_string html_string in
  let soup := BeautifulSoup html_string in
  parse_loop [] 0 (descendants soup).

Definition get_chunks_by_type (chunks : list ContentChunk) (t : ContentType)
  : list ContentChunk :=
  List.filter (λ chunk, bool_decide (content_type chunk = t)) chunks.

Definition get_chunks_summary (chunks : list ContentChunk) : gmap string Z :=
  foldl (λ summary chunk,
           let chunk_type := value (content_type chunk) in
           <[chunk_type := (default 0 (summary !! chunk_type) + 1)%Z]> summary)
        ∅ chunks.

Definition chunks_to_json (chunks : list ContentChunk)
  : list (gmap string json) :=
  map to_dict chunks.

End Parser.

End HtmlParser.

(** * Properties *)

(** ** Python strings *)

Module PyFacts.
Import Py.

Fixpoint all_space (s : string) : bool :=
  match s with
  | EmptyString => true
  | String a s' => isspace a && all_space s'
  end.

Lemma lstrip_empty s : lstrip s = EmptyString <-> all_space s = true.
Proof.
  induction s as [|a s IH]; simpl; [done|].
  destruct (isspace a); simpl; [done|]. split; discriminate.
Qed.











End PyFacts.

(** ** count_tokens *)

Module TokenFacts.
Import Py PyFacts Chunker.

(** The word count as the specification words it, each step stated on
    the characters of the string. *)


















End TokenFacts.

(** ** merge_consecutive_table_chunks *)

Module MergeFacts.
Import Py PyFacts Chunker.

(** The next chunk to be read is a table chunk. *)
Definition starts_table (l : list (gmap string json)) : bool :=
  match l with
  | c :: _ => is_table c
  | [] => false
  end.


(** No two neighbours are both table chunks. *)
Fixpoint no_adjacent_tables (l : list (gmap string json)) : bool :=
  match l with
  | [] => true
  | c :: rest => negb (is_table c && starts_table rest) && no_adjacent_tables rest
  end.

(** The content of a chunk is a string, or the key is missing. *)
Definition has_text (c : gmap string json) : bool :=
  match get c "content" (JStr "") with
  | JStr _ => true
  | _ => false
  end.

(** Every table chunk carries text. *)
Definition tables_have_text (l : list (gmap string json)) : bool :=
  forallb (λ c, negb (is_table c) || has_text c) l.

(** What the merge puts in place of a whole run. *)
Definition run_output (run : list (gmap string json)) (contents : list string)
  : list (gmap string json) :=
  match run with
  | [] => []
  | [t] => [t]
  | first :: _ => [merged_chunk first run contents]
  end.

Lemma has_text_stripped c : has_text c = true <-> is_Some (stripped_content c).
Proof.
  unfold has_text, stripped_content, str_strip.
  destruct (get c "content" (JStr "")); split; try done;
    intros [? ?]; discriminate.
Qed.

Lemma merge_loop_cons acc c rest :
  merge_loop acc (c :: rest) =
  if is_table c then
    match table_step c rest with
    | Some (out, rest') => merge_loop (acc ++ [out]) rest'
    | None => None
    end
  else merge_loop (acc ++ [c]) rest.
Proof.
  simp merge_loop. destruct (is_table c); simp merge_loop; [|done].
  destruct (inspect (table_step c rest)) as [[[out r]|] E];
    simp merge_loop; by rewrite E.
Qed.

Lemma merge_loop_acc acc l :
  merge_loop acc l = (acc ++.) <$> merge_loop [] l.
Proof.
  remember (length l) as n eqn:Hn. revert acc l Hn.
  induction n as [n IH] using lt_wf_ind. intros acc [|c rest] Hn.
  - simp merge_loop. simpl. by rewrite app_nil_r.
  - rewrite !merge_loop_cons. simpl in Hn.
    assert (forall a r, length r < n ->
              merge_loop a r = (a ++.) <$> merge_loop [] r) as IH'.
    { intros a r Hr. by apply (IH (length r)). }
    destruct (is_table c).
    + destruct (table_step c rest) as [[out r]|] eqn:E; [|done].
      apply table_step_length in E. simpl.
      rewrite (IH' (acc ++ [out])), (IH' [out]) by lia.
      destruct (merge_loop [] r); simpl; [|done]. by rewrite <-app_assoc.
    + simpl. rewrite (IH' (acc ++ [c])), (IH' [c]) by lia.
      destruct (merge_loop [] rest); simpl; [|done]. by rewrite <-app_assoc.
Qed.

Lemma merge_eq l : merge_consecutive_table_chunks l = merge_loop [] l.
Proof. by destruct l. Qed.

(** One round of the outer loop, on the function itself. *)
Lemma merge_cons c rest :
  merge_consecutive_table_chunks (c :: rest) =
  if is_table c then
    match table_step c rest with
    | Some (out, rest') => (out ::.) <$> merge_consecutive_table_chunks rest'
    | None => None
    end
  else (c ::.) <$> merge_consecutive_table_chunks rest.
Proof.
  rewrite !merge_eq, merge_loop_cons.
  destruct (is_table c).
  - destruct (table_step c rest) as [[out r]|]; [|done].
    by rewrite merge_eq, merge_loop_acc.
  - by rewrite merge_loop_acc.
Qed.


#[local] Arguments merge_consecutive_table_chunks : simpl never.

(** *** The look-ahead loop *)



Lemma look_ahead_run run post tcs tct contents :
  Forall (λ c, is_table c = true) run ->
  starts_table post = false ->
  mapM stripped_content run = Some contents ->
  look_ahead tcs tct (run ++ post) = Some (tcs ++ run, tct ++ contents, post).
Proof.
  intros Hrun Hpost. revert tcs tct contents.
  induction Hrun as [|x run Hx _ IH]; intros tcs tct contents Hc; simpl in *.
  - injection Hc as <-. rewrite !app_nil_r.
    destruct post as [|c post]; [done|]. simpl in *. by rewrite Hpost.
  - rewrite Hx. destruct (stripped_content x) as [s|]; simpl in *; [|done].
    destruct (mapM stripped_content run) as [cs|]; simpl in *; [|done].
    injection Hc as <-. rewrite (IH _ _ cs) by done.
    by rewrite <-!app_assoc.
Qed.

(** The rest that the look-ahead leaves does not start with a table. *)
Lemma look_ahead_rest tcs tct l tcs' tct' rest :
  look_ahead tcs tct l = Some (tcs', tct', rest) -> starts_table rest = false.
Proof.
  revert tcs tct. induction l as [|x l IH]; intros tcs tct; simpl.
  - by intros [= _ _ <-].
  - destruct (is_table x) eqn:Hx.
    + destruct (stripped_content x); simpl; [|done]. apply IH.
    + intros [= _ _ <-]. done.
Qed.

(** *** The outer loop *)


(** A run of table chunks at the head, followed by no table chunk. *)
Lemma merge_run run post contents :
  Forall (λ c, is_table c = true) run ->
  starts_table post = false ->
  mapM stripped_content run = Some contents ->
  merge_consecutive_table_chunks (run ++ post) =
  (run_output run contents ++.) <$> merge_consecutive_table_chunks post.
Proof.
  intros Hrun Hpost Hc. destruct run as [|first others].
  { simpl. by destruct (merge_consecutive_table_chunks post). }
  simpl app at 1. rewrite merge_cons.
  inversion Hrun as [|? ? Hfirst Hothers]; subst. rewrite Hfirst.
  simpl in Hc. unfold table_step.
  destruct (stripped_content first) as [s|]; simpl in *; [|done].
  destruct (mapM stripped_content others) as [cs|] eqn:Hcs; simpl in *; [|done].
  injection Hc as <-.
  rewrite (look_ahead_run others post [first] [s] cs) by done. simpl.
  destruct others as [|second others]; simpl.
  - by destruct (merge_consecutive_table_chunks post).
  - by destruct (merge_consecutive_table_chunks post).
Qed.



(** *** The merged chunk *)



Lemma table_step_out c rest out rest' :
  is_table c = true ->
  table_step c rest = Some (out, rest') ->
  is_table out = true /\ has_text out = true /\ starts_table rest' = false.
Proof.
  intros Hc. unfold table_step.
  destruct (stripped_content c) as [s|] eqn:Hs; simpl; [|done].
  destruct (look_ahead _ _ _) as [[[tcs tct] r]|] eqn:E; simpl; [|done].
  apply look_ahead_rest in E.
  destruct (1 <? length tcs)%nat; intros [= <- <-].
  - done.
  - repeat split; [done| |done]. apply has_text_stripped. by exists s.
Qed.

Lemma merge_starts l l' :
  merge_consecutive_table_chunks l = Some l' ->
  starts_table l = false -> starts_table l' = false.
Proof.
  destruct l as [|c rest]; [by intros [= <-]|].
  rewrite merge_cons. simpl. intros H Hc. rewrite Hc in H.
  destruct (merge_consecutive_table_chunks rest); simpl in H; [|done].
  injection H as <-. done.
Qed.

(** *** Sample chunks, as [ContentChunk.to_dict] writes them *)

Definition sample_chunk (content_type tag_name content : string)
    (table_info : json) (position : Z) : gmap string json :=
  <["content_type" := JStr content_type]> (
  <["content" := JStr content]> (
  <["tag_name" := JStr tag_name]> (
  <["attributes" := JDict ∅]> (
  <["level" := JNull]> (
  <["list_type" := JNull]> (
  <["table_info" := table_info]> (
  <["position" := JInt position]> ∅))))))).

Definition sample_table (position : Z) (content : string) :=
  sample_chunk "table" "tr" content (JDict ∅) position.

Definition sample_paragraph (position : Z) (content : string) :=
  sample_chunk "paragraph" "p" content JNull position.

(** *** C1 *)



(** *** C4 *)

Lemma merge_no_adjacent l :
  no_adjacent_tables l = true -> tables_have_text l = true ->
  merge_consecutive_table_chunks l = Some l.
Proof.
  induction l as [|c rest IH]; [done|]. simpl.
  intros [Hadj Hrest]%andb_prop [Hc Htext]%andb_prop.
  specialize (IH Hrest Htext).
  destruct (is_table c) eqn:Ht.
  - simpl in Hadj, Hc. apply negb_true_iff in Hadj.
    apply has_text_stripped in Hc as [s Hs].
    pose proof (merge_run [c] rest [s]) as H. simpl in H.
    rewrite H, IH; [done| |done|by rewrite Hs]. by repeat constructor.
  - by rewrite merge_cons, Ht, IH.
Qed.

Lemma merge_output_shape l l' :
  merge_consecutive_table_chunks l = Some l' ->
  no_adjacent_tables l' = true /\ tables_have_text l' = true.
Proof.
  remember (length l) as n eqn:Hn. revert l l' Hn.
  induction n as [n IH] using lt_wf_ind. intros [|c rest] l' Hn.
  { by intros [= <-]. }
  rewrite merge_cons. simpl in Hn. destruct (is_table c) eqn:Ht.
  - destruct (table_step c rest) as [[out r]|] eqn:E; [|done].
    pose proof (table_step_length _ _ _ _ E) as Hlen.
    apply table_step_out in E as (Hout & Htxt & Hr); [|done].
    destruct (merge_consecutive_table_chunks r) as [r'|] eqn:Er; simpl; [|done].
    intros [= <-].
    destruct (IH (length r) ltac:(lia) r r' eq_refl Er) as [Ha Hb].
    simpl. rewrite (merge_starts _ _ Er Hr), Hout, Htxt, Ha, Hb. done.
  - destruct (merge_consecutive_table_chunks rest) as [r'|] eqn:Er; simpl; [|done].
    intros [= <-].
    destruct (IH (length rest) ltac:(lia) rest r' eq_refl Er) as [Ha Hb].
    simpl. by rewrite Ht, Ha, Hb.
Qed.

(** C4.  On a chunk sequence in which no two neighbours are both table
    chunks (each table chunk carrying a string as content, as every chunk
    of the data model does) the merge returns the sequence itself; every
    output of the merge is such a sequence, so merging it again returns it
    unchanged. *)
Theorem merge_idempotent :
  (forall l,
      no_adjacent_tables l = true -> tables_have_text l = true ->
      merge_consecutive_table_chunks l = Some l) /\
  (forall l l',
      merge_consecutive_table_chunks l = Some l' ->
      no_adjacent_tables l' = true /\
      merge_consecutive_table_chunks l' = Some l').
Proof.
  split; [exact merge_no_adjacent|].
  intros l l' [Ha Hb]%merge_output_shape. split; [done|].
  by apply merge_no_adjacent.
Qed.

Lemma merge_idempotent_witness :
  (no_adjacent_tables
     [sample_table 0 "a|b"; sample_paragraph 1 "x"; sample_table 2 "c"] = true /\
   tables_have_text
     [sample_table 0 "a|b"; sample_paragraph 1 "x"; sample_table 2 "c"] = true /\
   merge_consecutive_table_chunks
     [sample_table 0 "a|b"; sample_paragraph 1 "x"; sample_table 2 "c"] =
   Some [sample_table 0 "a|b"; sample_paragraph 1 "x"; sample_table 2 "c"]) /\
  (forall l',
      merge_consecutive_table_chunks
        [sample_table 0 "a|b"; sample_table 1 "c|d"; sample_paragraph 2 "x"]
        = Some l' ->
      merge_consecutive_table_chunks l' = Some l').
Proof.
  split.
  - split; [reflexivity|]. split; [reflexivity|].
    apply (proj1 merge_idempotent); reflexivity.
  - intros l' H. exact (proj2 (proj2 merge_idempotent _ _ H)).
Defined.

(** *** C7 *)



(** *** C10 *)




End MergeFacts.

(** ** filter_empty_content *)

Module FilterFacts.
Import Py PyFacts Chunker MergeFacts.

(** The trimmed content of a chunk is not empty. *)
Definition has_content (c : gmap string json) : bool :=
  match stripped_content c with
  | Some s => nonempty s
  | None => false
  end.

Lemma nonempty_length s : nonempty s = true -> (0 <? String.length s)%nat = true.
Proof. by destruct s. Qed.

Lemma filter_loop_spec filtered chunks contents :
  mapM stripped_content chunks = Some contents ->
  filter_loop filtered chunks = Some (filtered ++ List.filter has_content chunks).
Proof.
  revert filtered contents.
  induction chunks as [|c chunks IH]; intros filtered contents H; simpl in *.
  - by rewrite app_nil_r.
  - unfold has_content at 1.
    destruct (stripped_content c) as [s|]; simpl in *; [|done].
    destruct (mapM stripped_content chunks) as [cs|]; simpl in *; [|done].
    destruct (nonempty s) eqn:Hs.
    + rewrite (nonempty_length s Hs), !orb_true_r.
      rewrite (IH _ cs) by done. by rewrite <-app_assoc.
    + by rewrite (IH _ cs).
Qed.

(** What the filter does: it keeps a chunk iff its trimmed content is not
    empty, whatever its content type. *)
Lemma filter_empty_content_spec chunks contents :
  mapM stripped_content chunks = Some contents ->
  filter_empty_content chunks = Some (List.filter has_content chunks).
Proof. intros H. unfold filter_empty_content. by rewrite (filter_loop_spec _ _ contents). Qed.

(** C2 says that a divider or an image is kept whatever its content.  The
    code tests the content type only under [if content:], so a divider or
    an image whose content is empty or whitespace is dropped like any
    other chunk. *)
Theorem filter_drops_empty_divider_and_image :
  filter_empty_content [sample_chunk "divider" "hr" "" JNull 0] = Some [] /\
  filter_empty_content [sample_chunk "image" "img" "  " JNull 0] = Some [] /\
  filter_empty_content
    [sample_chunk "divider" "hr" "---" JNull 0;
     sample_chunk "paragraph" "p" " " JNull 1;
     sample_chunk "paragraph" "p" "x" JNull 2] =
  Some [sample_chunk "divider" "hr" "---" JNull 0;
        sample_chunk "paragraph" "p" "x" JNull 2].
Proof. by vm_compute. Qed.

End FilterFacts.

(** ** The conversion to database records *)

Module ConvertFacts.
Import Py PyFacts Chunker MergeFacts.

Section Ids.

Variable py_str : json -> string.
Variable paper_title : string.

Lemma convert_chunk_id chunk chunk_id r :
  convert_chunk_to_database_format py_str paper_title chunk chunk_id = Some r ->
  id r = chunk_id.
Proof.
  unfold convert_chunk_to_database_format.
  destruct (stripped_content chunk); simpl; [|done].
  destruct (chunk_type_of _); simpl; [|done].
  destruct (html_class_of _ _); simpl; [|done].
  match goal with |- context [mbind _ ?x] => destruct x end; simpl; [|done].
  by intros [= <-].
Qed.

Lemma convert_loop_ids chunks database_chunks chunk_id :
  map id database_chunks = seqZ 1 (Z.of_nat (length database_chunks)) ->
  chunk_id = (1 + Z.of_nat (length database_chunks))%Z ->
  map id (convert_loop py_str paper_title database_chunks chunk_id chunks) =
  seqZ 1 (Z.of_nat (length
    (convert_loop py_str paper_title database_chunks chunk_id chunks))).
Proof.
  revert database_chunks chunk_id.
  induction chunks as [|c chunks IH]; intros acc cid Hacc Hcid; simpl; [done|].
  destruct (convert_chunk_to_database_format _ _ c cid) as [r|] eqn:E.
  - apply convert_chunk_id in E. apply IH.
    + rewrite map_app, length_app, Hacc. simpl.
      rewrite Nat.add_1_r, seqZ_S. by rewrite E, Hcid.
    + rewrite length_app. simpl. lia.
  - by apply IH.
Qed.

(** Whether a chunk converts does not depend on the id it is given. *)
Lemma convert_chunk_any_id chunk i j :
  is_Some (convert_chunk_to_database_format py_str paper_title chunk i) ->
  is_Some (convert_chunk_to_database_format py_str paper_title chunk j).
Proof.
  unfold convert_chunk_to_database_format.
  destruct (stripped_content chunk); simpl; [|done].
  destruct (chunk_type_of _); simpl; [|done].
  destruct (html_class_of _ _); simpl; [|done].
  match goal with |- context [mbind _ ?x] => destruct x end; simpl; [|done].
  intros _. eauto.
Qed.

(** The conversion of the chunk does not raise. *)
Definition converts (chunk : gmap string json) : bool :=
  match convert_chunk_to_database_format py_str paper_title chunk 0 with
  | Some _ => true
  | None => false
  end.

Lemma convert_loop_length chunks database_chunks chunk_id :
  length (convert_loop py_str paper_title database_chunks chunk_id chunks) =
  length database_chunks + length (List.filter converts chunks).
Proof.
  revert database_chunks chunk_id.
  induction chunks as [|c chunks IH]; intros acc cid; simpl; [lia|].
  unfold converts at 1.
  destruct (convert_chunk_to_database_format _ _ c cid) as [r|] eqn:E.
  - destruct (convert_chunk_any_id c cid 0) as [r0 ->]; [by rewrite E|].
    rewrite IH, length_app. simpl. lia.
  - destruct (convert_chunk_to_database_format _ _ c 0) as [r0|] eqn:E0.
    + destruct (convert_chunk_any_id c 0 cid) as [r E']; [by rewrite E0|].
      congruence.
    + apply IH.
Qed.

Lemma add_table_info_is_Some chunk m1 m2 :
  is_Some (add_table_info chunk m1) -> is_Some (add_table_info chunk m2).
Proof.
  unfold add_table_info. destruct (truthy _); [|eauto].
  destruct (get_none chunk "table_info") as [| | | ? | ? | d]; try done.
  - destruct (contains _ _); [done | eauto].
  - destruct (existsb _ _); [done | eauto].
  - destruct (d !! "merged_chunks"); eauto.
Qed.

(** Whether a chunk converts does not depend on its [position]. *)
Lemma converts_position chunk v :
  converts (<["position" := v]> chunk) = converts chunk.
Proof.
  assert (forall k, k <> "position" ->
            (<["position" := v]> chunk) !! k = chunk !! k) as Hk.
  { intros k Hne. by rewrite lookup_insert_ne. }
  assert (forall c1 c2 : gmap string json,
            (forall k, k <> "position" -> c1 !! k = c2 !! k) ->
            converts c1 = true -> converts c2 = true) as Hmono.
  { intros c1 c2 Heq. unfold converts, convert_chunk_to_database_format.
    unfold stripped_content, html_class_of, get, get_none.
    rewrite !(Heq "content"), !(Heq "content_type"), !(Heq "attributes") by done.
    destruct (str_strip _); simpl; [|done].
    destruct (chunk_type_of _); simpl; [|done].
    match goal with |- context [match ?x with JDict _ => _ | _ => _ end] =>
      destruct x; simpl; try done end.
    match goal with |- context [mbind _ ?x] => destruct x end; simpl; [|done].
    destruct (eq_str _ "table"); simpl; [|done].
    match goal with |- context [add_table_info c1 ?m] =>
      destruct (add_table_info c1 m) eqn:E1 end; simpl; [|done].
    intros _.
    match goal with |- context [add_table_info c2 ?m] =>
      destruct (add_table_info c2 m) eqn:E2 end; simpl; [done|].
    exfalso. revert E1 E2. unfold add_table_info, get_none.
    rewrite (Heq "table_info") by done. intros E1 E2.
    match type of E1 with ?f ?c ?m = _ => idtac | _ => idtac end.
    destruct (truthy _); [|done].
    destruct (default JNull (c2 !! "table_info")) as [| | | ? | ? | ti]; try done.
    - by destruct (contains _ _).
    - by destruct (existsb _ _).
    - by destruct (ti !! "merged_chunks"). }
  destruct (converts chunk) eqn:E.
  - apply (Hmono chunk); [|done]. intros k Hne. by rewrite Hk.
  - destruct (converts (<["position":=v]> chunk)) eqn:E'; [|done].
    apply (Hmono _ chunk) in E'; [congruence | done].
Qed.

(** C9.  The records that the conversion loop builds carry the ids
    1, 2, ..., n in output order, n being the number of chunks whose
    conversion did not raise; so do the records of the whole conversion,
    after filtering and merging; and the ids do not depend on the
    [position] values of the chunks. *)
Theorem database_ids_sequential :
  (forall chunks,
      let recs := convert_loop py_str paper_title [] 1 chunks in
      map id recs = seqZ 1 (Z.of_nat (length recs)) /\
      length recs = length (List.filter converts chunks)) /\
  (forall chunks include_empty merge_tables recs,
      convert_json_to_database_format py_str paper_title
        chunks include_empty merge_tables = Some recs ->
      map id recs = seqZ 1 (Z.of_nat (length recs))) /\
  (forall chunks (new_position : gmap string json -> json),
      map id (convert_loop py_str paper_title [] 1
                (map (λ c, <["position" := new_position c]> c) chunks)) =
      map id (convert_loop py_str paper_title [] 1 chunks)).
Proof.
  assert (forall chunks,
             map id (convert_loop py_str paper_title [] 1 chunks) =
             seqZ 1 (Z.of_nat (length (convert_loop py_str paper_title [] 1 chunks))))
    as Hids by (intros chunks; by apply convert_loop_ids).
  split; [|split].
  - intros chunks recs. split; [apply Hids|].
    subst recs. by rewrite convert_loop_length.
  - intros chunks include_empty merge_tables recs.
    unfold convert_json_to_database_format.
    destruct (if negb include_empty then _ else _) as [c1|]; simpl; [|done].
    destruct (if merge_tables then _ else _) as [c2|]; simpl; [|done].
    intros [= <-]. apply Hids.
  - intros chunks new_position. rewrite !Hids, !convert_loop_length.
    do 3 f_equal. simpl. clear Hids.
    induction chunks as [|c chunks IH]; simpl; [done|].
    rewrite converts_position. destruct (converts c); simpl; by rewrite IH.
Qed.

End Ids.

(** The printing of a value that is not a string, for the samples: none
    of them holds such a value where it would be printed. *)
Definition sample_str (v : json) : string :=
  match v with
  | JStr s => s
  | JNull => "None"
  | JBool true => "True"
  | JBool false => "False"
  | _ => EmptyString
  end.

Definition sample_document : list (gmap string json) :=
  [sample_chunk "heading" "h1" "Title" JNull 0;
   sample_paragraph 1 "  ";
   sample_table 2 "a|b"; sample_table 3 "c|d";
   sample_paragraph 4 "x"].

Lemma database_ids_sequential_witness :
  exists recs,
    convert_json_to_database_format sample_str "Title"
      sample_document false true = Some recs /\
    map (λ r, metadata r !! "position") recs =
      [Some (JInt 0); Some (JInt 2); Some (JInt 4)] /\
    map id recs = seqZ 1 (Z.of_nat (length recs)).
Proof.
  eexists. split; [vm_compute; reflexivity|].
  split; [vm_compute; reflexivity|].
  apply (proj1 (proj2 (database_ids_sequential sample_str "Title"))
           sample_document false true).
  vm_compute; reflexivity.
Defined.

End ConvertFacts.

(** ** The classifier *)

Module ParserFacts.
Import Py PyFacts HtmlParser.

(** *** Text extraction *)

(** Induction on parse trees, with the hypothesis on every content. *)
Fixpoint node_induction (P : node -> Prop)
    (Htext : forall s, P (NavigableString s))
    (Htag : forall n a cs, Forall P cs -> P (Tag n a cs))
    (e : node) : P e :=
  match e with
  | NavigableString s => Htext s
  | Tag n a cs =>
      Htag n a cs
        ((fix all (l : list node) : Forall P l :=
            match l with
            | [] => @List.Forall_nil _ P
            | c :: l' =>
                @List.Forall_cons _ P c l' (node_induction P Htext Htag c) (all l')
            end) cs)
  end.

(** The trimmed, non-empty strings that are contents of the element itself
    or of a tag of [ignore_tags] reached from it through such tags only,
    in document order. *)
Fixpoint reachable_texts (e : node) : list string :=
  match e with
  | NavigableString _ => []
  | Tag _ _ cs =>
      (fix through (l : list node) : list string :=
         match l with
         | [] => []
         | c :: l' =>
             match c with
             | NavigableString s =>
                 if nonempty (strip s) then [strip s] else []
             | Tag n _ _ =>
                 if mem n ignore_tags then reachable_texts c else []
             end ++ through l'
         end) cs
  end.

(** The trimmed, non-empty strings directly in a tag. *)
Definition own_texts (d : node) : list string :=
  omap (λ c, match c with
             | NavigableString s =>
                 if nonempty (strip s) then Some (strip s) else None
             | Tag _ _ _ => None
             end) (contents_of d).

(** The reading of the specification: the text of every tag that is not
    ignored and lies below a nested ignored container is part of the
    extracted content. *)
Definition includes_text_below_ignored (e : node) : Prop :=
  forall c d t,
    c ∈ contents_of e -> is_tag c = true ->
    mem (name_of c) ignore_tags = true ->
    d ∈ descendants c -> mem (name_of d) ignore_tags = false ->
    t ∈ own_texts d ->
    contains t (_extract_text_content e) = true.

Lemma join_cons sep x l :
  join sep (x :: l) =
  match l with [] => x | _ => x +:+ sep +:+ join sep l end.
Proof. by destruct l. Qed.

Lemma string_app_assoc (a b c : string) : (a +:+ b) +:+ c = a +:+ (b +:+ c).
Proof.
  induction a as [|x a IH]; [done|].
  change (String x ((a +:+ b) +:+ c) = String x (a +:+ b +:+ c)).
  by rewrite IH.
Qed.

Lemma join_app sep l1 l2 :
  l1 <> [] -> l2 <> [] ->
  join sep (l1 ++ l2) = join sep l1 +:+ sep +:+ join sep l2.
Proof.
  intros H1 H2. induction l1 as [|x l1 IH]; [done|].
  destruct l1 as [|y l1].
  - simpl. by destruct l2.
  - specialize (IH ltac:(done)).
    change (x +:+ sep +:+ join sep ((y :: l1) ++ l2) =
            (x +:+ sep +:+ join sep (y :: l1)) +:+ sep +:+ join sep l2).
    by rewrite IH, !string_app_assoc.
Qed.

Lemma join_nonempty sep l :
  Forall (λ x, nonempty x = true) l -> l <> [] -> nonempty (join sep l) = true.
Proof.
  intros Hl Hne. destruct l as [|x l]; [done|].
  inversion Hl as [|? ? Hx _]; subst. rewrite join_cons.
  destruct x; [done|]. by destruct l.
Qed.

(** A joined group in front of a list joins like its members. *)
Lemma join_group sep g l :
  g <> [] -> join sep (join sep g :: l) = join sep (g ++ l).
Proof.
  intros Hg. destruct l as [|y l].
  - by rewrite app_nil_r.
  - rewrite join_app by done. by rewrite join_cons.
Qed.

(** The list [text_parts] of [_extract_text_content], for the contents
    [l] of a tag. *)
Fixpoint text_parts (l : list node) : list string :=
  match l with
  | [] => []
  | c :: l' =>
      match c with
      | NavigableString s =>
          if nonempty (strip s) then strip s :: text_parts l' else text_parts l'
      | Tag n _ _ =>
          if mem n ignore_tags then
            if nonempty (_extract_text_content c)
            then _extract_text_content c :: text_parts l'
            else text_parts l'
          else text_parts l'
      end
  end.

Lemma extract_text_tag n a cs :
  _extract_text_content (Tag n a cs) = join " " (text_parts cs).
Proof. reflexivity. Qed.

(** [reachable_texts] over the contents of a tag. *)
Definition reachable_in (l : list node) : list string :=
  flat_map (λ c, match c with
                 | NavigableString s =>
                     if nonempty (strip s) then [strip s] else []
                 | Tag n _ _ =>
                     if mem n ignore_tags then reachable_texts c else []
                 end) l.

Lemma reachable_texts_tag n a cs :
  reachable_texts (Tag n a cs) = reachable_in cs.
Proof. simpl. induction cs as [|c cs IH]; simpl; [done|]. by rewrite IH. Qed.

Lemma reachable_texts_nonempty e :
  Forall (λ x, nonempty x = true) (reachable_texts e).
Proof.
  induction e as [s|n a cs IH] using node_induction; [constructor|].
  rewrite reachable_texts_tag.
  induction IH as [|c cs Hc _ IHcs]; [constructor|].
  simpl. apply Forall_app. split; [|exact IHcs].
  destruct c as [s|m b ds].
  - destruct (nonempty (strip s)) eqn:E; repeat constructor. done.
  - destruct (mem m ignore_tags); [exact Hc | constructor].
Qed.

Lemma text_parts_nonempty l : Forall (λ x, nonempty x = true) (text_parts l).
Proof.
  induction l as [|c l IH]; simpl; [constructor|].
  destruct c as [s|m b ds].
  - destruct (nonempty (strip s)) eqn:E; [by constructor | done].
  - destruct (mem m ignore_tags); [|done].
    destruct (nonempty (_extract_text_content _)) eqn:E; [by constructor | done].
Qed.

Lemma join_empty sep l :
  Forall (λ x, nonempty x = true) l -> join sep l = EmptyString -> l = [].
Proof.
  intros Hl Hj. destruct l as [|x l]; [done|].
  pose proof (join_nonempty sep (x :: l) Hl ltac:(done)) as H.
  by rewrite Hj in H.
Qed.

(** In front of the same text, two lists with the same join join alike. *)
Lemma join_cons_cong sep t l1 l2 :
  Forall (λ x, nonempty x = true) l1 ->
  Forall (λ x, nonempty x = true) l2 ->
  join sep l1 = join sep l2 ->
  join sep (t :: l1) = join sep (t :: l2).
Proof.
  intros H1 H2 Hj. rewrite !join_cons.
  destruct l1 as [|x1 l1], l2 as [|x2 l2]; try done.
  - symmetry in Hj. by apply join_empty in Hj.
  - by apply join_empty in Hj.
  - by rewrite Hj.
Qed.

Lemma extract_text_reachable e :
  is_tag e = true ->
  _extract_text_content e = join " " (reachable_texts e).
Proof.
  induction e as [s|n a cs IH] using node_induction; [done|].
  intros _. rewrite extract_text_tag, reachable_texts_tag.
  induction IH as [|c cs Hc _ IHcs]; [done|].
  assert (Forall (λ x, nonempty x = true) (reachable_in cs)) as Hr.
  { rewrite <-(reachable_texts_tag n a). apply reachable_texts_nonempty. }
  pose proof (text_parts_nonempty cs) as Ht.
  simpl. destruct c as [s|m b ds].
  - destruct (nonempty (strip s)); simpl; [|done].
    by apply join_cons_cong.
  - destruct (mem m ignore_tags); [|done].
    rewrite Hc by done.
    pose proof (reachable_texts_nonempty (Tag m b ds)) as Hne.
    destruct (reachable_texts (Tag m b ds)) as [|x g] eqn:Eg.
    + simpl. exact IHcs.
    + rewrite (join_nonempty " " (x :: g)) by done.
      rewrite (join_cons_cong " " _ _ (reachable_in cs)) by done.
      apply join_group. done.
Qed.

(** *** C5 *)

(** [<p><span><b>x</b></span></p>] *)
Definition sample_nested : node :=
  Tag "p" ∅ [Tag "span" ∅ [Tag "b" ∅ [NavigableString "x"]]].

(** C5, as stated, fails: [b] is a tag that is not ignored, below the
    nested ignored container [span], and its text ["x"] is no part of the
    text extracted from [p], which is empty. *)
Lemma text_below_ignored_container_is_dropped :
  _extract_text_content sample_nested = EmptyString /\
  ~ includes_text_below_ignored sample_nested.
Proof.
  split; [reflexivity|]. intros H.
  specialize (H (Tag "span" ∅ [Tag "b" ∅ [NavigableString "x"]])
                (Tag "b" ∅ [NavigableString "x"]) "x").
  assert (contains "x" (_extract_text_content sample_nested) = false) as Hf
    by reflexivity.
  rewrite H in Hf; [discriminate| | | | | |].
  - simpl. apply list_elem_of_here.
  - reflexivity.
  - reflexivity.
  - simpl. apply list_elem_of_here.
  - reflexivity.
  - simpl. apply list_elem_of_here.
Qed.

(** C5, amended.  The text extracted from an element is the single-space
    join of the trimmed, non-empty strings that are contents of the
    element itself or of ignored tags nested in it through ignored tags
    only, in document order; ignored containers are looked through, and a
    content that is a tag outside [ignore_tags] adds nothing, whatever
    text lies below it. *)
Theorem extracted_text_is_reachable_text :
  (forall n a cs,
      _extract_text_content (Tag n a cs) =
      join " " (reachable_texts (Tag n a cs))) /\
  (forall n a before c after,
      is_tag c = true -> mem (name_of c) ignore_tags = false ->
      _extract_text_content (Tag n a (before ++ c :: after)) =
      _extract_text_content (Tag n a (before ++ after))).
Proof.
  split.
  - intros n a cs. by apply extract_text_reachable.
  - intros n a before c after Hc Hn.
    rewrite !extract_text_reachable, !reachable_texts_tag by done.
    unfold reachable_in. rewrite !flat_map_app. simpl.
    destruct c as [s|m b ds]; [done|]. simpl in Hn. by rewrite Hn.
Qed.

Lemma extracted_text_is_reachable_text_witness :
  is_tag (Tag "b" ∅ [NavigableString "bold"]) = true /\
  mem (name_of (Tag "b" ∅ [NavigableString "bold"])) ignore_tags = false /\
  _extract_text_content
    (Tag "p" ∅ ([NavigableString " Hello "]
                  ++ Tag "b" ∅ [NavigableString "bold"]
                  :: [Tag "span" ∅ [NavigableString "world"]])) =
  _extract_text_content
    (Tag "p" ∅ ([NavigableString " Hello "]
                  ++ [Tag "span" ∅ [NavigableString "world"]])).
Proof.
  split; [reflexivity|]. split; [reflexivity|].
  apply (proj2 extracted_text_is_reachable_text); reflexivity.
Defined.

(** *** The dispatch on the tag name *)

(** The lower-cased tag name is in none of the sets of the parser. *)
Definition unknown_tag (t : string) : bool :=
  negb (mem t ignore_tags) && negb (mem t heading_tags)
  && negb (mem t paragraph_tags) && negb (mem t list_tags)
  && negb (mem t table_tags) && negb (mem t divider_tags)
  && negb (mem t image_tags) && negb (mem t code_tags)
  && negb (mem t quote_tags) && negb (mem t form_tags)
  && negb (mem t nav_tags) && negb (mem t footer_tags)
  && negb (mem t header_tags) && negb (mem t structural_tags).

Section Classifier.

Variable py_str : json -> string.
Variable bullet_prefix : string.
Variable BeautifulSoup : string -> node.

#[local] Abbreviation process_element := (_process_element py_str bullet_prefix).
#[local] Abbreviation parse_loop := (parse_loop py_str bullet_prefix).
#[local] Abbreviation parse_html := (parse_html py_str bullet_prefix BeautifulSoup).

(** The element gives a chunk. *)
Definition emits (e : node) : bool :=
  match process_element e 0 with
  | Some _ => true
  | None => false
  end.

Ltac dispatch :=
  unfold _process_element, _process_structural;
  repeat match goal with
         | |- context [if mem ?t ?tags then _ else _] => destruct (mem t tags)
         | |- context [if nonempty ?x then _ else _] => destruct (nonempty x)
         end.

Lemma process_element_position e pos chunk :
  process_element e pos = Some chunk -> position chunk = Some pos.
Proof. dispatch; intros [= <-] || discriminate; reflexivity. Qed.

Lemma process_element_emits e pos :
  process_element e pos = None <-> emits e = false.
Proof. unfold emits. dispatch; split; (discriminate || reflexivity). Qed.

Lemma parse_loop_emits chunks pos elements :
  parse_loop chunks pos elements =
  parse_loop chunks pos (List.filter emits elements).
Proof.
  revert chunks pos. induction elements as [|e es IH]; intros chunks pos; [done|].
  simpl. destruct (emits e) eqn:E.
  - simpl. destruct (process_element e pos); by rewrite IH.
  - apply (proj2 (process_element_emits e pos)) in E. rewrite E. apply IH.
Qed.

Lemma parse_loop_positions elements chunks pos :
  map position chunks = Some <$> seqZ 0 (Z.of_nat (length chunks)) ->
  pos = Z.of_nat (length chunks) ->
  map position (parse_loop chunks pos elements) =
  Some <$> seqZ 0 (Z.of_nat (length (parse_loop chunks pos elements))).
Proof.
  revert chunks pos.
  induction elements as [|e es IH]; intros chunks pos Hc Hp; simpl; [done|].
  destruct (process_element e pos) as [chunk|] eqn:E; [|by apply IH].
  apply process_element_position in E. apply IH.
  - rewrite map_app, length_app, Hc. simpl.
    rewrite Nat.add_1_r, seqZ_S, fmap_app. simpl. by rewrite E, Hp.
  - rewrite length_app. simpl. lia.
Qed.

(** *** C3 *)

(** C3.  For every HTML string the chunks that [parse_html] returns carry
    the positions 0, 1, ..., n-1 in output order, so the i-th chunk has
    position i; and the loop gives the same chunks when the elements that
    yield no chunk are left out: the counter advances on emitted chunks
    only. *)
Theorem positions_sequential :
  (forall html,
      map position (parse_html html) =
      Some <$> seqZ 0 (Z.of_nat (length (parse_html html)))) /\
  (forall html i chunk,
      parse_html html !! i = Some chunk ->
      position chunk = Some (Z.of_nat i)) /\
  (forall elements,
      parse_loop [] 0 elements = parse_loop [] 0 (List.filter emits elements)).
Proof.
  assert (forall html,
      map position (parse_html html) =
      Some <$> seqZ 0 (Z.of_nat (length (parse_html html)))) as Hpos
    by (intros html; by apply parse_loop_positions).
  split; [exact Hpos|]. split; [|intros; apply parse_loop_emits].
  intros html i chunk Hi.
  pose proof (f_equal (λ l, l !! i) (Hpos html)) as H. simpl in H.
  rewrite list_lookup_fmap, Hi in H. simpl in H.
  rewrite list_lookup_fmap in H.
  apply lookup_lt_Some in Hi as Hlt.
  rewrite lookup_seqZ_lt in H by lia. simpl in H.
  injection H as H. rewrite H. f_equal; lia.
Qed.

(** *** C6 *)

(** C6, amended.  An element whose tag is in [ignore_tags] yields no
    chunk, whatever its text; an element whose tag is in none of the tag
    sets yields exactly one chunk, of type [unknown], holding the
    extracted text, whether that text is empty or not. *)
Theorem unknown_elements_always_emit :
  (forall e pos,
      mem (lower (name_of e)) ignore_tags = true ->
      process_element e pos = None) /\
  (forall e pos,
      unknown_tag (lower (name_of e)) = true ->
      exists chunk,
        process_element e pos = Some chunk /\
        content_type chunk = UNKNOWN /\
        content chunk = _extract_text_content e /\
        tag_name chunk = name_of e /\
        position chunk = Some pos).
Proof.
  split.
  - intros e pos H. unfold _process_element. by rewrite H.
  - intros e pos H. unfold unknown_tag in H.
    repeat match type of H with
           | _ && _ = true => apply andb_prop in H as [H ?]
           end.
    repeat match goal with
           | H' : negb _ = true |- _ => apply negb_true_iff in H'
           end.
    unfold _process_element.
    repeat match goal with
           | H' : mem _ _ = false |- _ => rewrite H'; clear H'
           end.
    eexists. split; [reflexivity|]. done.
Qed.

End Classifier.

(** The literal of [_extract_list_content], in its UTF-8 bytes. *)
Definition sample_bullet : string :=
  String "195" (String "162" (String "226" (String "130" (String "172"
    (String "194" (String "162" (String " " EmptyString))))))).

(** [str()] for the samples, none of which prints a list or a dict. *)
Definition sample_str (v : json) : string :=
  match v with
  | JStr s => s
  | JNull => "None"
  | JBool true => "True"
  | JBool false => "False"
  | _ => EmptyString
  end.

(** A document: [<html><body><h1>Title</h1><p>Some <b>bold</b> text</p>
    <br/><hr/></body></html>]. *)
Definition sample_soup : node :=
  Tag "[document]" ∅
    [Tag "html" ∅
       [Tag "body" ∅
          [Tag "h1" ∅ [NavigableString "Title"];
           Tag "p" ∅ [NavigableString "Some ";
                      Tag "b" ∅ [NavigableString "bold"];
                      NavigableString " text"];
           Tag "br" ∅ [];
           Tag "hr" ∅ []]]].

Lemma positions_sequential_witness :
  exists chunk,
    parse_html sample_str sample_bullet (λ _, sample_soup) "<html>" !! 3
      = Some chunk /\
    content_type chunk = UNKNOWN /\
    tag_name chunk = "br" /\
    position chunk = Some (Z.of_nat 3).
Proof.
  eexists. split; [vm_compute; reflexivity|].
  split; [reflexivity|]. split; [reflexivity|].
  apply (proj1 (proj2 (positions_sequential sample_str sample_bullet
                         (λ _, sample_soup))) "<html>" 3).
  vm_compute; reflexivity.
Defined.

(** C6, as stated, fails: [<br/>] has a tag of no category and no text,
    and it yields a chunk, of type [unknown] and with empty content. *)
Lemma empty_unknown_element_is_emitted :
  unknown_tag (lower "br") = true /\
  _extract_text_content (Tag "br" ∅ []) = EmptyString /\
  _process_element sample_str sample_bullet (Tag "br" ∅ []) 0 <> None /\
  (content <$> _process_element sample_str sample_bullet (Tag "br" ∅ []) 0)
    = Some EmptyString.
Proof. by vm_compute. Qed.

Lemma unknown_elements_always_emit_witness :
  (mem (lower (name_of (Tag "div" ∅ [NavigableString "text"]))) ignore_tags = true /\
   _process_element sample_str sample_bullet
     (Tag "div" ∅ [NavigableString "text"]) 0 = None) /\
  (unknown_tag (lower (name_of (Tag "b" ∅ [NavigableString "bold"]))) = true /\
   exists chunk,
     _process_element sample_str sample_bullet
       (Tag "b" ∅ [NavigableString "bold"]) 7 = Some chunk /\
     content_type chunk = UNKNOWN /\
     content chunk = _extract_text_content (Tag "b" ∅ [NavigableString "bold"]) /\
     tag_name chunk = name_of (Tag "b" ∅ [NavigableString "bold"]) /\
     position chunk = Some 7%Z).
Proof.
  split.
  - split; [reflexivity|].
    apply (proj1 (unknown_elements_always_emit sample_str sample_bullet)).
    reflexivity.
  - split; [reflexivity|].
    apply (proj2 (unknown_elements_always_emit sample_str sample_bullet)).
    reflexivity.
Defined.

End ParserFacts.

(** * Further properties of the normaliser *)

Module NormaliserFacts.
Import Py PyFacts Chunker MergeFacts FilterFacts.

#[local] Arguments merge_consecutive_table_chunks : simpl never.

(** Induction on the length of a list. *)
Lemma length_induction {A} (P : list A -> Prop) :
  (forall l, (forall l', length l' < length l -> P l') -> P l) ->
  forall l, P l.
Proof.
  intros H l. remember (length l) as n eqn:Hn. revert l Hn.
  induction n as [n IH] using lt_wf_ind. intros l ->.
  apply H. intros l' Hl. by apply (IH (length l')).
Qed.

(** ** filter_empty_content *)

Lemma filter_loop_outcome filtered chunks :
  filter_loop filtered chunks =
  if forallb has_text chunks
  then Some (filtered ++ List.filter has_content chunks)
  else None.
Proof.
  revert filtered. induction chunks as [|c chunks IH]; intros filtered; simpl.
  - by rewrite app_nil_r.
  - unfold has_content at 1, has_text at 1, stripped_content, str_strip.
    destruct (get c "content" (JStr "")) as [| | |s| |]; simpl; try done.
    destruct (nonempty (strip s)) eqn:Hs.
    + rewrite (nonempty_length _ Hs), !orb_true_r, IH.
      destruct (forallb has_text chunks); [|done]. by rewrite <-app_assoc.
    + apply IH.
Qed.

(** The filter raises exactly when some chunk holds a content that is not
    a string; otherwise it returns, in their order, the chunks whose
    trimmed content is not empty, and looks at no other key. *)
Theorem filter_empty_content_outcome chunks :
  filter_empty_content chunks =
  if forallb has_text chunks then Some (List.filter has_content chunks) else None.
Proof. unfold filter_empty_content. by rewrite filter_loop_outcome. Qed.

Lemma has_content_text c : has_content c = true -> has_text c = true.
Proof.
  unfold has_content, has_text, stripped_content, str_strip.
  by destruct (get c "content" (JStr "")).
Qed.

(** Filtering what the filter returned changes nothing. *)
Theorem filter_empty_content_idempotent chunks kept :
  filter_empty_content chunks = Some kept ->
  filter_empty_content kept = Some kept.
Proof.
  rewrite !filter_empty_content_outcome.
  destruct (forallb has_text chunks); [|done]. intros [= <-].
  assert (forallb has_text (List.filter has_content chunks) = true) as ->.
  { apply forallb_forall. intros c [_ Hc]%filter_In. by apply has_content_text. }
  f_equal. clear. induction chunks as [|c chunks IH]; simpl; [done|].
  destruct (has_content c) eqn:E; simpl; [|done]. by rewrite E, IH.
Qed.

Lemma filter_empty_content_idempotent_witness :
  filter_empty_content
    [sample_paragraph 0 "x"; sample_paragraph 1 " "; sample_table 2 "a|b"]
    = Some [sample_paragraph 0 "x"; sample_table 2 "a|b"] /\
  filter_empty_content [sample_paragraph 0 "x"; sample_table 2 "a|b"]
    = Some [sample_paragraph 0 "x"; sample_table 2 "a|b"].
Proof.
  split; [reflexivity|].
  apply (filter_empty_content_idempotent
           [sample_paragraph 0 "x"; sample_paragraph 1 " "; sample_table 2 "a|b"]).
  reflexivity.
Defined.

(** ** merge_consecutive_table_chunks *)

(** The table chunks at the head of the list, and what follows them. *)
Fixpoint table_run (l : list (gmap string json))
  : list (gmap string json) * list (gmap string json) :=
  match l with
  | c :: rest =>
      if is_table c then let '(run, post) := table_run rest in (c :: run, post)
      else ([], l)
  | [] => ([], [])
  end.

Lemma table_run_spec l run post :
  table_run l = (run, post) ->
  l = run ++ post /\ Forall (λ c, is_table c = true) run /\
  starts_table post = false.
Proof.
  revert run post. induction l as [|c rest IH]; intros run post; simpl.
  - by intros [= <- <-].
  - destruct (is_table c) eqn:Hc.
    + destruct (table_run rest) as [run' post'] eqn:E. intros [= <- <-].
      destruct (IH _ _ eq_refl) as (-> & Hrun & Hpost).
      repeat split; [by constructor | done].
    + intros [= <- <-]. repeat split; [constructor | by simpl].
Qed.

Lemma look_ahead_raises run post tcs tct :
  Forall (λ c, is_table c = true) run ->
  mapM stripped_content run = None ->
  look_ahead tcs tct (run ++ post) = None.
Proof.
  intros Hrun. revert tcs tct.
  induction Hrun as [|x run Hx _ IH]; intros tcs tct Hc; simpl in *; [done|].
  rewrite Hx. destruct (stripped_content x) as [s|]; simpl in *; [|done].
  destruct (mapM stripped_content run); simpl in *; [done|]. by apply IH.
Qed.

(** A run of table chunks at the head, one of whose contents is no
    string. *)
Lemma merge_run_raises run post :
  run <> [] ->
  Forall (λ c, is_table c = true) run ->
  mapM stripped_content run = None ->
  merge_consecutive_table_chunks (run ++ post) = None.
Proof.
  intros Hne Hrun Hc. destruct run as [|first others]; [done|].
  simpl app. rewrite merge_cons.
  inversion Hrun as [|? ? Hfirst Hothers]; subst. rewrite Hfirst.
  unfold table_step. simpl in Hc.
  destruct (stripped_content first) as [s|]; simpl in *; [|done].
  destruct (mapM stripped_content others) eqn:E; simpl in *; [done|].
  by rewrite look_ahead_raises.
Qed.

Lemma table_run_length l run post :
  table_run l = (run, post) -> length post <= length l.
Proof.
  intros (-> & _ & _)%table_run_spec. rewrite length_app. lia.
Qed.

(** One round of the outer loop, by runs. *)
Lemma merge_by_runs c rest run post :
  is_table c = true ->
  table_run rest = (run, post) ->
  merge_consecutive_table_chunks (c :: rest) =
  match mapM stripped_content (c :: run) with
  | Some contents =>
      (run_output (c :: run) contents ++.) <$> merge_consecutive_table_chunks post
  | None => None
  end.
Proof.
  intros Hc (-> & Hrun & Hpost)%table_run_spec.
  change (c :: run ++ post) with ((c :: run) ++ post).
  destruct (mapM stripped_content (c :: run)) as [contents|] eqn:E.
  - apply merge_run; [by constructor | done | done].
  - apply merge_run_raises; [done | by constructor | done].
Qed.

Lemma mapM_text run :
  is_Some (mapM stripped_content run) <-> forallb has_text run = true.
Proof.
  induction run as [|c run IH]; simpl; [by split; eauto|].
  rewrite andb_true_iff, <-IH, has_text_stripped.
  destruct (stripped_content c) as [s|]; simpl.
  - destruct (mapM stripped_content run); simpl.
    + split; eauto.
    + split; [intros [? ?]; done | intros [_ [? ?]]; done].
  - split; [intros [? ?]; done | intros [[? ?] _]; done].
Qed.

Lemma tables_have_text_app l1 l2 :
  tables_have_text (l1 ++ l2) = tables_have_text l1 && tables_have_text l2.
Proof. unfold tables_have_text. apply forallb_app. Qed.

Lemma tables_have_text_run run :
  Forall (λ c, is_table c = true) run ->
  tables_have_text run = forallb has_text run.
Proof.
  induction 1 as [|c run Hc _ IH]; simpl; [done|]. by rewrite Hc, IH.
Qed.

(** The merge raises exactly when some table chunk holds a content that
    is not a string; the content of the other chunks is never read. *)
Theorem merge_raises_iff chunks :
  merge_consecutive_table_chunks chunks = None <->
  tables_have_text chunks = false.
Proof.
  induction chunks as [[|c rest] IH] using length_induction; [done|].
  simpl in IH. destruct (is_table c) eqn:Hc.
  - destruct (table_run rest) as [run post] eqn:E.
    rewrite (merge_by_runs c rest run post Hc E).
    pose proof (table_run_length _ _ _ E) as Hlen.
    apply table_run_spec in E as (-> & Hrun & Hpost).
    change (c :: run ++ post) with ((c :: run) ++ post).
    rewrite tables_have_text_app, tables_have_text_run by by constructor.
    pose proof (mapM_text (c :: run)) as Ht.
    destruct (mapM stripped_content (c :: run)) as [contents|].
    + rewrite (proj1 Ht) by eauto. simpl.
      rewrite <-(IH post) by lia.
      by destruct (merge_consecutive_table_chunks post).
    + destruct (forallb has_text (c :: run)) eqn:Ef; [|done].
      destruct (proj2 Ht eq_refl) as [? ?]. done.
  - rewrite merge_cons, Hc. simpl. rewrite Hc. simpl.
    rewrite <-(IH rest) by lia.
    by destruct (merge_consecutive_table_chunks rest).
Qed.

(** The chunks that are no table chunks come out as they went in, in
    their order, and the merge never makes the list longer. *)
Theorem merge_keeps_other_chunks chunks merged :
  merge_consecutive_table_chunks chunks = Some merged ->
  List.filter (λ c, negb (is_table c)) merged =
    List.filter (λ c, negb (is_table c)) chunks /\
  length merged <= length chunks.
Proof.
  revert merged.
  induction chunks as [[|c rest] IH] using length_induction; intros merged.
  { by intros [= <-]. }
  simpl in IH. destruct (is_table c) eqn:Hc.
  - destruct (table_run rest) as [run post] eqn:E.
    rewrite (merge_by_runs c rest run post Hc E).
    pose proof (table_run_length _ _ _ E) as Hlen.
    apply table_run_spec in E as (-> & Hrun & Hpost).
    destruct (mapM stripped_content (c :: run)) as [contents|]; [|done].
    destruct (merge_consecutive_table_chunks post) as [m|] eqn:Em; [|done].
    simpl. intros [= <-].
    destruct (IH post ltac:(lia) m Em) as [Hf Hl].
    assert (List.filter (λ c, negb (is_table c)) run = []) as Hnone.
    { clear -Hrun.
      induction Hrun as [|x run Hx _ IHr]; simpl; [done|]. by rewrite Hx. }
    rewrite Hc, !List.filter_app, Hnone, Hf. split.
    + destruct run; simpl; by rewrite ?Hc.
    + rewrite !length_app. destruct run; simpl; lia.
  - rewrite merge_cons, Hc.
    destruct (merge_consecutive_table_chunks rest) as [m|] eqn:Em; [|done].
    simpl. intros [= <-].
    destruct (IH rest ltac:(lia) m Em) as [Hf Hl].
    simpl. rewrite Hc. simpl. rewrite Hf. split; [done | lia].
Qed.

Lemma merge_keeps_other_chunks_witness :
  List.filter (λ c, negb (is_table c))
    [merged_chunk (sample_table 0 "a") [sample_table 0 "a"; sample_table 1 "b"]
       ["a"; "b"]; sample_paragraph 2 "x"] =
  List.filter (λ c, negb (is_table c))
    [sample_table 0 "a"; sample_table 1 "b"; sample_paragraph 2 "x"] /\
  length
    [merged_chunk (sample_table 0 "a") [sample_table 0 "a"; sample_table 1 "b"]
       ["a"; "b"]; sample_paragraph 2 "x"] <=
  length [sample_table 0 "a"; sample_table 1 "b"; sample_paragraph 2 "x"].
Proof.
  apply (merge_keeps_other_chunks
           [sample_table 0 "a"; sample_table 1 "b"; sample_paragraph 2 "x"]).
  vm_compute; reflexivity.
Defined.

End NormaliserFacts.
